(** * WebRTCManager: the signalling and session-lifecycle manager

    A shallow embedding of the class [WebRTCManager] (the file that imports
    [Session], [Signaller] and [Stream] from [@/libs/webrtc]).

    The class is a bundle of mutable fields driven by callbacks.  Every
    method and every closure it hands out is embedded as a command over the
    record of fields; a command also produces the list of calls it makes on
    its collaborators (the signaller, the session object, [window.setTimeout]).
    A second layer, [World], keeps what the collaborators hold on behalf of
    the manager (armed timeouts, registered parsers, unanswered requests) and
    delivers one callback at a time, as the single-threaded event loop does.

    [console.debug] / [console.error] output and the media-track plumbing of
    [onTrackAdded] do not touch any field used for control and are left out. *)

From Stdlib Require Import String Ascii List Bool Arith Lia.
Import ListNotations.

Local Open Scope string_scope.
Local Open Scope list_scope.

(** ** Data *)

(** Modelled from the spec: the [Stream] type of [signalling_protocol] is
    imported, not defined, by the manager; the spec gives a catalog entry as
    [{id, name}], which are the two properties the manager reads. *)
Module Stream.
Record t : Type := mk { id : string; name : string }.
End Stream.

(** Modelled from the spec: the [Session] class is imported, not defined, by
    the manager.  The manager constructs it from a session id, its own
    [consumerId] (read through a non-null assertion, so possibly undefined at
    run time) and the stream, and afterwards reads [session.id] and calls
    [session.end()]. *)
Module Session.
Record t : Type :=
  mk { id : string; consumerId : option string; stream : Stream.t }.
End Session.

(** The two [window.setTimeout] callbacks of the class. *)
Inductive Timer : Type :=
| PollTimer      (* armed by [updateStreamsAvailable] *)
| SessionTimer.  (* armed by [startSession] *)

(** Calls the manager makes on its collaborators. *)
Inductive Action : Type :=
| SetTimeout (t : Timer) (ms : nat)
| RequestConsumerId
| RequestStreams
| ParseAvailableStreamsAnswer
| RequestSessionId (consumer : string) (stream : Stream.t)
| NewSession (s : Session.t)
| ParseEndSessionQuestion (consumer : option string) (producer session : string)
| ParseNegotiation (consumer : option string) (producer session : string)
| SessionEnd (s : Session.t)
| SignallerEnd (reason : string).

(** The private fields of the class ([rtcConfiguration] and [signaller] are
    assigned once in the constructor and never change). *)
Record Manager : Type := mkManager {
  availableStreams : list Stream.t;
  signallerStatus : string;
  streamStatus : string;
  consumerId : option string;
  streamName : option string;
  session : option Session.t;
  hasEnded : bool;
  waitingForAvailableStreamsAnswer : bool;
  waitingForSessionStart : bool
}.

(** Field initialisers of the class. *)
Definition initial : Manager :=
  {| availableStreams := [];
     signallerStatus := "waiting...";
     streamStatus := "waiting...";
     consumerId := None;
     streamName := None;
     session := None;
     hasEnded := false;
     waitingForAvailableStreamsAnswer := false;
     waitingForSessionStart := false |}.

(** Field assignments. *)
Definition set_availableStreams (v : list Stream.t) (m : Manager) : Manager :=
  mkManager v (signallerStatus m) (streamStatus m) (consumerId m) (streamName m)
    (session m) (hasEnded m) (waitingForAvailableStreamsAnswer m)
    (waitingForSessionStart m).

Definition set_signallerStatus (v : string) (m : Manager) : Manager :=
  mkManager (availableStreams m) v (streamStatus m) (consumerId m) (streamName m)
    (session m) (hasEnded m) (waitingForAvailableStreamsAnswer m)
    (waitingForSessionStart m).

Definition set_streamStatus (v : string) (m : Manager) : Manager :=
  mkManager (availableStreams m) (signallerStatus m) v (consumerId m)
    (streamName m) (session m) (hasEnded m)
    (waitingForAvailableStreamsAnswer m) (waitingForSessionStart m).

Definition set_consumerId (v : option string) (m : Manager) : Manager :=
  mkManager (availableStreams m) (signallerStatus m) (streamStatus m) v
    (streamName m) (session m) (hasEnded m)
    (waitingForAvailableStreamsAnswer m) (waitingForSessionStart m).

Definition set_streamName (v : option string) (m : Manager) : Manager :=
  mkManager (availableStreams m) (signallerStatus m) (streamStatus m)
    (consumerId m) v (session m) (hasEnded m)
    (waitingForAvailableStreamsAnswer m) (waitingForSessionStart m).

Definition set_session (v : option Session.t) (m : Manager) : Manager :=
  mkManager (availableStreams m) (signallerStatus m) (streamStatus m)
    (consumerId m) (streamName m) v (hasEnded m)
    (waitingForAvailableStreamsAnswer m) (waitingForSessionStart m).

Definition set_hasEnded (v : bool) (m : Manager) : Manager :=
  mkManager (availableStreams m) (signallerStatus m) (streamStatus m)
    (consumerId m) (streamName m) (session m) v
    (waitingForAvailableStreamsAnswer m) (waitingForSessionStart m).

Definition set_waitingForAvailableStreamsAnswer (v : bool) (m : Manager)
  : Manager :=
  mkManager (availableStreams m) (signallerStatus m) (streamStatus m)
    (consumerId m) (streamName m) (session m) (hasEnded m) v
    (waitingForSessionStart m).

Definition set_waitingForSessionStart (v : bool) (m : Manager) : Manager :=
  mkManager (availableStreams m) (signallerStatus m) (streamStatus m)
    (consumerId m) (streamName m) (session m) (hasEnded m)
    (waitingForAvailableStreamsAnswer m) v.

(** ** Commands

    A command runs against the fields and the wall clock of the delivery it
    belongs to; it yields a value, the new fields and the collaborator calls
    made, in program order.  [clock] is the text that
    [new Date().toTimeString().split(' ').first()] evaluates to. *)
Definition Cmd (A : Type) : Type :=
  string -> Manager -> A * Manager * list Action.

Definition ret {A : Type} (a : A) : Cmd A := fun _ m => (a, m, []).

Definition bind {A B : Type} (c : Cmd A) (k : A -> Cmd B) : Cmd B :=
  fun clk m =>
    let '(a, m1, out1) := c clk m in
    let '(b, m2, out2) := k a clk m1 in
    (b, m2, out1 ++ out2).

Definition this : Cmd Manager := fun _ m => (m, m, []).
Definition clock : Cmd string := fun clk m => (clk, m, []).
Definition assign (f : Manager -> Manager) : Cmd unit := fun _ m => (tt, f m, []).
Definition call (a : Action) : Cmd unit := fun _ m => (tt, m, [a]).
Definition skip : Cmd unit := ret tt.

Declare Scope cmd_scope.
Delimit Scope cmd_scope with cmd.
Notation "x <- c ;; k" := (bind c (fun x => k))
  (at level 61, c at next level, right associativity) : cmd_scope.
Notation "c ;; k" := (bind c (fun _ => k))
  (at level 61, right associativity) : cmd_scope.
Local Open Scope cmd_scope.

(** Fields and calls after running a command. *)
Definition exec {A : Type} (c : Cmd A) (clk : string) (m : Manager)
  : Manager * list Action :=
  let '(_, m', out) := c clk m in (m', out).

Definition fields {A : Type} (c : Cmd A) (clk : string) (m : Manager) : Manager :=
  fst (exec c clk m).

Definition calls {A : Type} (c : Cmd A) (clk : string) (m : Manager)
  : list Action :=
  snd (exec c clk m).

(** ** Text helpers for the template literals *)

Definition dq : string := String (ascii_of_nat 34) EmptyString.

(** [`${x}`] for a value that may be [undefined]. *)
Definition show (x : option string) : string :=
  match x with Some s => s | None => "undefined" end.

Definition quoted (s : string) : string := dq ++ s ++ dq.

(** ** Methods of the class *)

Definition updateStreamStatus (newStatus : string) : Cmd unit :=
  time <- clock ;;
  assign (set_streamStatus (newStatus ++ " (" ++ time ++ ")")).

Definition updateSignallerStatus (newStatus : string) : Cmd unit :=
  time <- clock ;;
  assign (set_signallerStatus (newStatus ++ " (" ++ time ++ ")")).

Definition updateStreamsAvailable : Cmd unit :=
  m <- this ;;
  if waitingForAvailableStreamsAnswer m then
    call RequestStreams
  else if hasEnded m then
    assign (set_waitingForAvailableStreamsAnswer false)
  else
    assign (set_waitingForAvailableStreamsAnswer true) ;;
    call (SetTimeout PollTimer 1000).

(** The closure given to [window.setTimeout] in [updateStreamsAvailable]. *)
Definition onPollTimeout : Cmd unit :=
  m <- this ;;
  if negb (waitingForAvailableStreamsAnswer m) then skip
  else
    call ParseAvailableStreamsAnswer ;;
    call RequestStreams.

(** The closure given to [parseAvailableStreamsAnswer]. *)
Definition onAvailableStreams (streams : list Stream.t) : Cmd unit :=
  m <- this ;;
  if negb (waitingForAvailableStreamsAnswer m) then skip
  else
    assign (set_waitingForAvailableStreamsAnswer false) ;;
    assign (set_availableStreams streams) ;;
    updateStreamsAvailable.

(** The first closure given to [requestConsumerId]. *)
Definition onConsumerId (newConsumerId : string) : Cmd unit :=
  assign (set_consumerId (Some newConsumerId)).

Definition startConsumer : Cmd unit :=
  assign (set_hasEnded false) ;;
  m <- this ;;
  (match consumerId m with
   | None => call RequestConsumerId
   | Some _ => skip
   end) ;;
  assign (set_availableStreams []) ;;
  updateStreamsAvailable.

Definition requestSession (stream : Stream.t) (consumer : string) : Cmd unit :=
  call (RequestSessionId consumer stream) ;;
  assign (set_hasEnded false).

Definition startSession : Cmd unit :=
  m <- this ;;
  if waitingForSessionStart m then skip
  else
    assign (set_waitingForSessionStart true) ;;
    call (SetTimeout SessionTimer 1000).

(** [this.availableStreams.value.find((s) => s.name === this.streamName)]:
    a name is a string, so nothing equals an undefined [streamName]. *)
Definition nameIs (wanted : option string) (s : Stream.t) : bool :=
  match wanted with
  | Some n => String.eqb (Stream.name s) n
  | None => false
  end.

Definition notAvailable (wanted : option string) : string :=
  "Failed to start a new Session with " ++ quoted (show wanted)
  ++ ". Reason: not available".

Definition starting (stream : Stream.t) (wanted : option string) : string :=
  "Starting session with producer " ++ quoted (Stream.id stream)
  ++ " (" ++ quoted (show wanted) ++ ")".

Definition noConsumer (stream : Stream.t) (wanted : option string) : string :=
  "Failed to start a new Session with producer" ++ quoted (Stream.id stream)
  ++ " (" ++ quoted (show wanted) ++ "). Reason: undefined consumerId".

(** The closure given to [window.setTimeout] in [startSession]. *)
Definition onSessionTimeout : Cmd unit :=
  m <- this ;;
  if negb (waitingForSessionStart m) then skip
  else
    match find (nameIs (streamName m)) (availableStreams m) with
    | None =>
        updateStreamStatus (notAvailable (streamName m)) ;;
        assign (set_waitingForSessionStart false) ;;
        startSession
    | Some stream =>
        updateStreamStatus (starting stream (streamName m)) ;;
        match consumerId m with
        | None =>
            updateStreamStatus (noConsumer stream (streamName m)) ;;
            startConsumer ;;
            startSession
        | Some consumer =>
            requestSession stream consumer ;;
            assign (set_waitingForSessionStart false)
        end
    end.

Definition stopSession (reason : string) : Cmd unit :=
  m <- this ;;
  match session m with
  | None => skip
  | Some s =>
      updateStreamStatus
        ("Stopping session " ++ Session.id s ++ ". Reason: " ++ reason) ;;
      call (SessionEnd s) ;;
      assign (set_session None) ;;
      assign (set_hasEnded true)
  end.

Definition onSessionClosed (reason : string) : Cmd unit :=
  stopSession reason ;;
  assign (set_consumerId None) ;;
  startConsumer ;;
  startSession.

(** The closure given to [parseEndSessionQuestion]. *)
Definition onEndSession : Cmd unit :=
  assign (set_session None) ;;
  assign (set_hasEnded true).

Definition onSessionIdReceived (stream : Stream.t) (producerId : string)
  (receivedSessionId : string) : Cmd unit :=
  m <- this ;;
  let s := Session.mk receivedSessionId (consumerId m) stream in
  call (NewSession s) ;;
  assign (set_session (Some s)) ;;
  call (ParseEndSessionQuestion (consumerId m) producerId (Session.id s)) ;;
  call (ParseNegotiation (consumerId m) producerId (Session.id s)) ;;
  updateStreamStatus ("Session " ++ Session.id s ++ " successfully started").

Definition close (reason : string) : Cmd unit :=
  stopSession reason ;;
  call (SignallerEnd reason) ;;
  assign (set_hasEnded true).

(** [newStream?.id]. *)
Definition idOf (s : option Stream.t) : option string :=
  option_map Stream.id s.

Definition sameId (a b : option string) : bool :=
  match a, b with
  | None, None => true
  | Some x, Some y => String.eqb x y
  | _, _ => false
  end.

Definition selectionChanged (newStream oldStream : option Stream.t) : string :=
  "Selected stream changed from " ++ quoted (show (idOf oldStream))
  ++ " to " ++ quoted (show (idOf newStream)) ++ ".".

(** The callback given to [watch] in [startStream]. *)
Definition onSelectedStream (newStream oldStream : option Stream.t) : Cmd unit :=
  if sameId (idOf newStream) (idOf oldStream) then skip
  else
    let msg := selectionChanged newStream oldStream in
    (match oldStream with
     | Some _ => stopSession msg
     | None => skip
     end) ;;
    match newStream with
    | Some s =>
        assign (set_streamName (Some (Stream.name s))) ;;
        startSession
    | None => skip
    end.

(** ** The event loop around the manager

    What the collaborators hold for the manager between two deliveries.

    Modelled from the spec: the [Signaller] class is imported, not defined, by
    the manager.  Following the spec's Signalling Client, every request is an
    asynchronous request/response pair and a response with no pending
    request or parser is discarded, so a registered parser or answer closure
    runs at most once per registration. *)
Record World : Type := mkWorld {
  mgr : Manager;
  pollTimers : nat;          (* armed timeouts of [updateStreamsAvailable] *)
  sessionTimers : nat;       (* armed timeouts of [startSession] *)
  streamsParsers : nat;      (* registered available-streams parsers *)
  streamsRequests : nat;     (* [requestStreams] sent and not yet answered *)
  consumerRequests : nat;    (* [requestConsumerId] sent and not yet answered *)
  sessionRequests : list (string * Stream.t);
                             (* [requestSessionId] sent and not yet answered *)
  endSessionParsers : nat;   (* registered end-session parsers *)
  sessions : list Session.t; (* [Session] objects constructed so far *)
  selected : option Stream.t;(* current value of the watched [selectedStream] *)
  sent : list Action         (* every collaborator call so far, oldest first *)
}.

(** The manager right after its constructor and one [startStream] call. *)
Definition boot : World :=
  {| mgr := initial; pollTimers := 0; sessionTimers := 0; streamsParsers := 0;
     streamsRequests := 0; consumerRequests := 0; sessionRequests := [];
     endSessionParsers := 0; sessions := []; selected := None; sent := [] |}.

Definition with_mgr (m : Manager) (w : World) : World :=
  mkWorld m (pollTimers w) (sessionTimers w) (streamsParsers w)
    (streamsRequests w) (consumerRequests w) (sessionRequests w)
    (endSessionParsers w) (sessions w) (selected w) (sent w).

(** What one collaborator call leaves behind. *)
Definition perform (w : World) (a : Action) : World :=
  let log := sent w ++ [a] in
  match a with
  | SetTimeout PollTimer _ =>
      mkWorld (mgr w) (S (pollTimers w)) (sessionTimers w) (streamsParsers w)
        (streamsRequests w) (consumerRequests w) (sessionRequests w)
        (endSessionParsers w) (sessions w) (selected w) log
  | SetTimeout SessionTimer _ =>
      mkWorld (mgr w) (pollTimers w) (S (sessionTimers w)) (streamsParsers w)
        (streamsRequests w) (consumerRequests w) (sessionRequests w)
        (endSessionParsers w) (sessions w) (selected w) log
  | ParseAvailableStreamsAnswer =>
      mkWorld (mgr w) (pollTimers w) (sessionTimers w) (S (streamsParsers w))
        (streamsRequests w) (consumerRequests w) (sessionRequests w)
        (endSessionParsers w) (sessions w) (selected w) log
  | RequestStreams =>
      mkWorld (mgr w) (pollTimers w) (sessionTimers w) (streamsParsers w)
        (S (streamsRequests w)) (consumerRequests w) (sessionRequests w)
        (endSessionParsers w) (sessions w) (selected w) log
  | RequestConsumerId =>
      mkWorld (mgr w) (pollTimers w) (sessionTimers w) (streamsParsers w)
        (streamsRequests w) (S (consumerRequests w)) (sessionRequests w)
        (endSessionParsers w) (sessions w) (selected w) log
  | RequestSessionId c s =>
      mkWorld (mgr w) (pollTimers w) (sessionTimers w) (streamsParsers w)
        (streamsRequests w) (consumerRequests w) (sessionRequests w ++ [(c, s)])
        (endSessionParsers w) (sessions w) (selected w) log
  | ParseEndSessionQuestion _ _ _ =>
      mkWorld (mgr w) (pollTimers w) (sessionTimers w) (streamsParsers w)
        (streamsRequests w) (consumerRequests w) (sessionRequests w)
        (S (endSessionParsers w)) (sessions w) (selected w) log
  | NewSession s =>
      mkWorld (mgr w) (pollTimers w) (sessionTimers w) (streamsParsers w)
        (streamsRequests w) (consumerRequests w) (sessionRequests w)
        (endSessionParsers w) (sessions w ++ [s]) (selected w) log
  | ParseNegotiation _ _ _ | SessionEnd _ | SignallerEnd _ =>
      mkWorld (mgr w) (pollTimers w) (sessionTimers w) (streamsParsers w)
        (streamsRequests w) (consumerRequests w) (sessionRequests w)
        (endSessionParsers w) (sessions w) (selected w) log
  end.

(** Run one callback of the manager to completion. *)
Definition invoke (c : Cmd unit) (clk : string) (w : World) : World :=
  let '(m', out) := exec c clk (mgr w) in
  fold_left perform out (with_mgr m' w).

(** Callbacks the event loop can deliver. *)
Inductive Event : Type :=
| SignallerOpen                       (* the [onOpen] closure of the constructor *)
| SignallerStatus (status : string)   (* the status closure of the constructor *)
| StreamStatus (status : string)      (* the status closure of a request *)
| PollTimeout
| SessionTimeout
| ConsumerIdAnswer (newConsumerId : string)
| StreamsAnswer (streams : list Stream.t)
| SessionIdAnswer (n : nat) (sessionId : string)
                                      (* answer to the n-th pending request *)
| EndSessionQuestion
| SessionClosed (reason : string)     (* the [onClosed] closure of a session *)
| SelectStream (newStream : option Stream.t)
| Close (reason : string).

Fixpoint remove_nth {A : Type} (n : nat) (l : list A) : list A :=
  match l, n with
  | [], _ => []
  | _ :: t, O => t
  | x :: t, S k => x :: remove_nth k t
  end.

(** Deliver one event at wall-clock text [clk]; [None] when nothing holds the
    callback (no such timeout armed, no such request pending). *)
Definition deliver (w : World) (e : Event) (clk : string) : option World :=
  match e with
  | SignallerOpen => Some (invoke startConsumer clk w)
  | SignallerStatus s => Some (invoke (updateSignallerStatus s) clk w)
  | StreamStatus s => Some (invoke (updateStreamStatus s) clk w)
  | PollTimeout =>
      match pollTimers w with
      | O => None
      | S k =>
          Some (invoke onPollTimeout clk
                  (mkWorld (mgr w) k (sessionTimers w) (streamsParsers w)
                     (streamsRequests w) (consumerRequests w)
                     (sessionRequests w) (endSessionParsers w) (sessions w)
                     (selected w) (sent w)))
      end
  | SessionTimeout =>
      match sessionTimers w with
      | O => None
      | S k =>
          Some (invoke onSessionTimeout clk
                  (mkWorld (mgr w) (pollTimers w) k (streamsParsers w)
                     (streamsRequests w) (consumerRequests w)
                     (sessionRequests w) (endSessionParsers w) (sessions w)
                     (selected w) (sent w)))
      end
  | ConsumerIdAnswer c =>
      match consumerRequests w with
      | O => None
      | S k =>
          Some (invoke (onConsumerId c) clk
                  (mkWorld (mgr w) (pollTimers w) (sessionTimers w)
                     (streamsParsers w) (streamsRequests w) k
                     (sessionRequests w) (endSessionParsers w) (sessions w)
                     (selected w) (sent w)))
      end
  | StreamsAnswer streams =>
      match streamsRequests w with
      | O => None
      | S k =>
          match streamsParsers w with
          | O =>
              Some (mkWorld (mgr w) (pollTimers w) (sessionTimers w) 0 k
                      (consumerRequests w) (sessionRequests w)
                      (endSessionParsers w) (sessions w) (selected w) (sent w))
          | S p =>
              Some (invoke (onAvailableStreams streams) clk
                      (mkWorld (mgr w) (pollTimers w) (sessionTimers w) p k
                         (consumerRequests w) (sessionRequests w)
                         (endSessionParsers w) (sessions w) (selected w)
                         (sent w)))
          end
      end
  | SessionIdAnswer n sid =>
      match nth_error (sessionRequests w) n with
      | None => None
      | Some (_, stream) =>
          Some (invoke (onSessionIdReceived stream (Stream.id stream) sid) clk
                  (mkWorld (mgr w) (pollTimers w) (sessionTimers w)
                     (streamsParsers w) (streamsRequests w)
                     (consumerRequests w) (remove_nth n (sessionRequests w))
                     (endSessionParsers w) (sessions w) (selected w) (sent w)))
      end
  | EndSessionQuestion =>
      match endSessionParsers w with
      | O => None
      | S k =>
          Some (invoke onEndSession clk
                  (mkWorld (mgr w) (pollTimers w) (sessionTimers w)
                     (streamsParsers w) (streamsRequests w)
                     (consumerRequests w) (sessionRequests w) k (sessions w)
                     (selected w) (sent w)))
      end
  | SessionClosed reason =>
      match sessions w with
      | [] => None
      | _ :: _ => Some (invoke (onSessionClosed reason) clk w)
      end
  | SelectStream newStream =>
      Some (invoke (onSelectedStream newStream (selected w)) clk
              (mkWorld (mgr w) (pollTimers w) (sessionTimers w)
                 (streamsParsers w) (streamsRequests w) (consumerRequests w)
                 (sessionRequests w) (endSessionParsers w) (sessions w)
                 newStream (sent w)))
  | Close reason => Some (invoke (close reason) clk w)
  end.

(** Deliver a schedule of events, each with its wall-clock text. *)
Fixpoint run (w : World) (schedule : list (Event * string)) : option World :=
  match schedule with
  | [] => Some w
  | (e, clk) :: rest =>
      match deliver w e clk with
      | Some w' => run w' rest
      | None => None
      end
  end.

Definition reachable (w : World) : Prop :=
  exists schedule, run boot schedule = Some w.

(** Number of calls of one kind in a log. *)
Definition isRequestStreams (a : Action) : bool :=
  match a with RequestStreams => true | _ => false end.

Definition isRequestSessionId (a : Action) : bool :=
  match a with RequestSessionId _ _ => true | _ => false end.

Definition isSetTimeout (t : Timer) (a : Action) : bool :=
  match a, t with
  | SetTimeout PollTimer _, PollTimer => true
  | SetTimeout SessionTimer _, SessionTimer => true
  | _, _ => false
  end.

Definition count (p : Action -> bool) (l : list Action) : nat :=
  length (filter p l).

Arguments count : simpl never.

Definition cam : Stream.t := Stream.mk "p1" "cam".
Definition cam2 : Stream.t := Stream.mk "p2" "cam2".

(** Deliveries that run [startConsumer] or [requestSession]. *)
Definition restarts (e : Event) : bool :=
  match e with
  | SignallerOpen | SessionTimeout | SessionClosed _ => true
  | _ => false
  end.

Definition quiet (e : Event) : bool := negb (restarts e).

(** Registration, one catalog refresh listing [cam], selection of [cam], a
    session [S1]; then the poll timeout fires and, before the catalog answer,
    the session reports that it closed. *)
Definition overlap_schedule : list (Event * string) :=
  [(SignallerOpen, "10:00:00"); (ConsumerIdAnswer "A1", "10:00:00");
   (PollTimeout, "10:00:01"); (StreamsAnswer [cam], "10:00:01");
   (SelectStream (Some cam), "10:00:02"); (SessionTimeout, "10:00:03");
   (SessionIdAnswer 0 "S1", "10:00:03"); (PollTimeout, "10:00:04");
   (SessionClosed "transport failure", "10:00:04")].

(** [cam] is selected while the catalog is still empty, then [close]. *)
Definition close_then_timeouts : list (Event * string) :=
  [(SelectStream (Some cam), "10:00:00"); (Close "bye", "10:00:00");
   (SessionTimeout, "10:00:01"); (SessionTimeout, "10:00:02")].

(** [cam] is listed and selected, then [close] before the session timeout. *)
Definition close_then_request : list (Event * string) :=
  [(SignallerOpen, "10:00:00"); (ConsumerIdAnswer "A1", "10:00:00");
   (PollTimeout, "10:00:01"); (StreamsAnswer [cam], "10:00:01");
   (SelectStream (Some cam), "10:00:02"); (Close "bye", "10:00:02");
   (SessionTimeout, "10:00:03"); (SessionIdAnswer 0 "S1", "10:00:03")].

(** Scenario C: the selection moves from [cam] to [cam2] while the session
    request for [cam] is unanswered; the answer arrives afterwards. *)
Definition reselect_schedule : list (Event * string) :=
  [(SignallerOpen, "10:00:00"); (ConsumerIdAnswer "A1", "10:00:00");
   (PollTimeout, "10:00:01"); (StreamsAnswer [cam; cam2], "10:00:01");
   (SelectStream (Some cam), "10:00:02"); (SessionTimeout, "10:00:03");
   (SelectStream (Some cam2), "10:00:03");
   (SessionIdAnswer 0 "S1", "10:00:04")].

(** Registration is unanswered when the catalog lists [cam] and [cam] is
    selected; the world just before the session timeout fires. *)
Definition late_consumer_schedule : list (Event * string) :=
  [(SignallerOpen, "10:00:00"); (PollTimeout, "10:00:01");
   (StreamsAnswer [cam], "10:00:01"); (SelectStream (Some cam), "10:00:02")].

Definition late_consumer : World :=
  Eval vm_compute in
    match run boot late_consumer_schedule with Some w => w | None => boot end.

Definition late_consumer_fired : World :=
  Eval vm_compute in
    match deliver late_consumer SessionTimeout "10:00:03" with
    | Some w => w
    | None => boot
    end.

(** The session-request loop holds its in-flight flag with no timeout armed:
    [startSession] returns at once and nothing is left to clear the flag. *)
Definition wedged (w : World) : Prop :=
  waitingForSessionStart (mgr w) = true /\ sessionTimers w = 0.

(** An active session [S1] on [cam]. *)
Definition active : Manager :=
  {| availableStreams := [cam];
     signallerStatus := "waiting...";
     streamStatus := "Session S1 successfully started (10:00:03)";
     consumerId := Some "A1";
     streamName := Some "cam";
     session := Some (Session.mk "S1" (Some "A1") cam);
     hasEnded := false;
     waitingForAvailableStreamsAnswer := true;
     waitingForSessionStart := false |}.

(** Scenario B: session [S1] on [cam] is active when it reports a transport
    failure; registration answers [A2] and the next catalog lists [cam]
    under a new id. *)
Definition cam_rotated : Stream.t := Stream.mk "p7" "cam".

Definition recovery_schedule : list (Event * string) :=
  [(SignallerOpen, "10:00:00"); (ConsumerIdAnswer "A1", "10:00:00");
   (PollTimeout, "10:00:01"); (StreamsAnswer [cam], "10:00:01");
   (SelectStream (Some cam), "10:00:02"); (SessionTimeout, "10:00:03");
   (SessionIdAnswer 0 "S1", "10:00:03");
   (SessionClosed "transport failure", "10:00:04");
   (ConsumerIdAnswer "A2", "10:00:04"); (PollTimeout, "10:00:04");
   (StreamsAnswer [cam_rotated], "10:00:05"); (SessionTimeout, "10:00:05")].

(** A world in which [cam] is selected and the catalog is still empty. *)
Definition selected_early : World :=
  Eval vm_compute in
    match run boot [(SelectStream (Some cam), "10:00:00")] with
    | Some w => w
    | None => boot
    end.

Definition selected_early_fired : World :=
  Eval vm_compute in
    match deliver selected_early SessionTimeout "10:00:01" with
    | Some w => w
    | None => boot
    end.

(** A schedule made only of deliveries of an admitted kind. *)
Definition only (ok : Event -> bool) (schedule : list (Event * string)) : bool :=
  forallb (fun d => ok (fst d)) schedule.

(** Each loop keeps at most one callback outstanding, and its in-flight flag
    says whether one is. *)
Definition loops_ok (w : World) : Prop :=
  pollTimers w + streamsParsers w =
    (if waitingForAvailableStreamsAnswer (mgr w) then 1 else 0)
  /\ sessionTimers w <= 1
  /\ (sessionTimers w = 1 -> waitingForSessionStart (mgr w) = true).

(** What stays true while only deliveries that neither restart the consumer
    nor request a session arrive after [hasEnded] was set: the flag stays
    set, no poll timeout is armed, and the one armed poll timeout, if any, is
    the only source of a further source-list request. *)
Definition winding_down (armed requested : nat) (w : World) : Prop :=
  hasEnded (mgr w) = true
  /\ pollTimers w + streamsParsers w =
       (if waitingForAvailableStreamsAnswer (mgr w) then 1 else 0)
  /\ count (isSetTimeout PollTimer) (sent w) = armed
  /\ count isRequestStreams (sent w) + pollTimers w <= requested + 1.

(** ** Further worlds and schedules used below *)

(** The world [late_consumer] after its armed poll timeout fired. *)
Definition late_consumer_polled : World :=
  Eval vm_compute in
    match deliver late_consumer PollTimeout "10:00:02" with
    | Some w => w
    | None => boot
    end.

(** ... and after the catalog answer to that poll. *)
Definition late_consumer_refreshed : World :=
  Eval vm_compute in
    match deliver late_consumer_polled (StreamsAnswer [cam; cam2]) "10:00:02" with
    | Some w => w
    | None => boot
    end.

(** Deliveries other than the selection of a defined stream. *)
Definition unselecting (e : Event) : bool :=
  match e with
  | SelectStream (Some _) => false
  | _ => true
  end.


(** No stream has been selected yet and the session-request loop never ran. *)
Definition unselected (w : World) : Prop :=
  streamName (mgr w) = None
  /\ selected w = None
  /\ session (mgr w) = None
  /\ waitingForSessionStart (mgr w) = false
  /\ sessionTimers w = 0
  /\ sessionRequests w = []
  /\ sessions w = []
  /\ endSessionParsers w = 0
  /\ count isRequestSessionId (sent w) = 0
  /\ count (isSetTimeout SessionTimer) (sent w) = 0.

(** The discovery loop turning: each catalog answer follows its poll. *)
Fixpoint poll_turns (answers : list (list Stream.t)) (clk : string)
  : list (Event * string) :=
  match answers with
  | [] => []
  | a :: rest => (PollTimeout, clk) :: (StreamsAnswer a, clk) :: poll_turns rest clk
  end.



(** Scenario A with an arbitrary consumer id, catalog, selection, session
    id and clock text. *)
Definition first_session_schedule (c sid : string) (catalog : list Stream.t)
  (wanted : Stream.t) (clk : string) : list (Event * string) :=
  [(SignallerOpen, clk); (ConsumerIdAnswer c, clk); (PollTimeout, clk);
   (StreamsAnswer catalog, clk); (SelectStream (Some wanted), clk);
   (SessionTimeout, clk); (SessionIdAnswer 0 sid, clk)].

(** A schedule without any selection of a defined stream. *)
Definition unselecting_schedule : list (Event * string) :=
  [(SignallerOpen, "10:00:00"); (ConsumerIdAnswer "A1", "10:00:00");
   (PollTimeout, "10:00:01"); (StreamsAnswer [cam], "10:00:01");
   (SelectStream None, "10:00:02"); (Close "bye", "10:00:03");
   (SignallerOpen, "10:00:04")].

Definition unselecting_world : World :=
  Eval vm_compute in
    match run boot unselecting_schedule with Some w => w | None => boot end.

(** ** The media handle

    [onTrackAdded] reads and writes [this.mediaStream] only, so it is embedded
    on that field alone.  A track object either has a [contentHint] property
    or lacks it; a stream is given by what [getVideoTracks()] returns for it
    and by its remaining tracks. *)
Module Media.
Record Track : Type := mkTrack { kind : string; contentHint : option string }.
Record Stream : Type :=
  mkStream { videoTracks : list Track; otherTracks : list Track }.
End Media.

(** How a callback ends. *)
Inductive Completion : Type :=
| Returns
| Throws.  (* TypeError: reading a property of undefined *)

(** The body of the [forEach] over the filtered video tracks. *)
Definition hintMotion (t : Media.Track) : Media.Track :=
  if String.eqb (Media.kind t) "video" then
    match Media.contentHint t with
    | None => t
    | Some _ => Media.mkTrack (Media.kind t) (Some "motion")
    end
  else t.

(** [onTrackAdded(event)], given [event.streams]: the new value of
    [this.mediaStream] (tracks are changed in place) and how the call ends.
    With no stream in the event the field is set to undefined before
    [getVideoTracks] is called on it. *)
Definition onTrackAdded (streams : list Media.Stream)
  : option Media.Stream * Completion :=
  match streams with
  | [] => (None, Throws)
  | remoteStream :: _ =>
      (Some (Media.mkStream (map hintMotion (Media.videoTracks remoteStream))
               (Media.otherTracks remoteStream)),
       Returns)
  end.




(** A status text is the initial one or a message with its time. *)
Definition stamped_or_initial (text : string) : Prop :=
  text = "waiting..."
  \/ exists status clk, text = (status ++ " (" ++ clk ++ ")")%string.

Definition texts_ok (w : World) : Prop :=
  stamped_or_initial (streamStatus (mgr w))
  /\ stamped_or_initial (signallerStatus (mgr w)).

(** The world [late_consumer] after the signaller opened once more. *)
Definition late_consumer_reopened : World :=
  Eval vm_compute in
    match deliver late_consumer SignallerOpen "10:00:02" with
    | Some w => w
    | None => boot
    end.

(** The callback an event stands for, in a given world. *)
Definition callback (w : World) (e : Event) : Cmd unit :=
  match e with
  | SignallerOpen => startConsumer
  | SignallerStatus status => updateSignallerStatus status
  | StreamStatus status => updateStreamStatus status
  | PollTimeout => onPollTimeout
  | SessionTimeout => onSessionTimeout
  | ConsumerIdAnswer c => onConsumerId c
  | StreamsAnswer streams =>
      match streamsParsers w with
      | O => skip
      | S _ => onAvailableStreams streams
      end
  | SessionIdAnswer n sid =>
      match nth_error (sessionRequests w) n with
      | Some (_, stream) => onSessionIdReceived stream (Stream.id stream) sid
      | None => skip
      end
  | EndSessionQuestion => onEndSession
  | SessionClosed reason => onSessionClosed reason
  | SelectStream newStream => onSelectedStream newStream (selected w)
  | Close reason => close reason
  end.

(** ** Proof automation *)

(** Case analysis on every guard a delivery can meet. *)
Ltac plain_scrutinee x :=
  lazymatch x with
  | context [match _ with _ => _ end] => fail
  | _ => idtac
  end.

Ltac split_guard :=
  match goal with
  | H : context [match ?x with _ => _ end] |- _ =>
      plain_scrutinee x; destruct x eqn:?
  | |- context [match ?x with _ => _ end] =>
      plain_scrutinee x; destruct x eqn:?
  end.

Ltac open_world w :=
  let m := fresh "m" in
  destruct w as [m ? ? ? ? ? ? ? ? ? ?]; destruct m.

(** Unfold the commands down to the guards they test. *)
Ltac unfold_cmds :=
  cbv beta iota zeta delta
    [invoke exec fields calls bind ret this clock assign call skip with_mgr
     updateStreamStatus updateSignallerStatus updateStreamsAvailable
     onPollTimeout onAvailableStreams onConsumerId startConsumer
     requestSession startSession onSessionTimeout stopSession onSessionClosed
     onEndSession onSessionIdReceived close onSelectedStream
     set_availableStreams set_signallerStatus set_streamStatus set_consumerId
     set_streamName set_session set_hasEnded
     set_waitingForAvailableStreamsAnswer set_waitingForSessionStart] in *;
  cbn in *.

Ltac split_guards :=
  repeat (split_guard; cbn in *; try discriminate).

Ltac delivered H :=
  cbn in H; try discriminate H; unfold_cmds; split_guards;
  try (injection H as <-); cbn in *.

(** Unfold a command run on explicit fields, leaving every text as the
    command wrote it. *)
Ltac unfold_fields :=
  cbv beta iota zeta delta
    [exec fields calls bind ret this clock assign call skip fst snd negb
     updateStreamStatus updateSignallerStatus updateStreamsAvailable
     onPollTimeout onAvailableStreams onConsumerId startConsumer
     requestSession startSession onSessionTimeout stopSession onSessionClosed
     onEndSession onSessionIdReceived close onSelectedStream
     set_availableStreams set_signallerStatus set_streamStatus set_consumerId
     set_streamName set_session set_hasEnded
     set_waitingForAvailableStreamsAnswer set_waitingForSessionStart
     availableStreams signallerStatus streamStatus consumerId streamName
     session hasEnded waitingForAvailableStreamsAnswer waitingForSessionStart].

(** A concrete schedule is settled by running it. *)
Ltac ran_schedule :=
  eexists; split; [vm_compute; reflexivity | repeat split; reflexivity].

(** ** Basic facts about the embedding *)

Lemma sameId_true (a b : option string) : sameId a b = true <-> a = b.
Proof.
  destruct a as [x|], b as [y|]; simpl; split; intro H;
    try discriminate; try reflexivity.
  - apply String.eqb_eq in H. now subst.
  - injection H as ->. apply String.eqb_refl.
Qed.

Lemma sameId_false (a b : option string) : sameId a b = false <-> a <> b.
Proof.
  rewrite <- sameId_true. destruct (sameId a b); split; congruence.
Qed.

Lemma count_app (p : Action -> bool) (l1 l2 : list Action) :
  count p (l1 ++ l2) = count p l1 + count p l2.
Proof. unfold count. now rewrite filter_app, length_app. Qed.

Lemma run_app (s1 s2 : list (Event * string)) (w : World) :
  run w (s1 ++ s2) =
  match run w s1 with Some w1 => run w1 s2 | None => None end.
Proof.
  revert w. induction s1 as [|[e clk] s1 IH]; intro w; simpl.
  - reflexivity.
  - destruct (deliver w e clk); [apply IH | reflexivity].
Qed.


Lemma reachable_deliver (w w' : World) (e : Event) (clk : string) :
  reachable w -> deliver w e clk = Some w' -> reachable w'.
Proof.
  intros [s Hs] Hd. exists (s ++ [(e, clk)]).
  rewrite run_app, Hs. simpl. now rewrite Hd.
Qed.

(** Anything kept by every delivery of an admitted kind holds along every
    schedule made of such deliveries. *)
Lemma run_invariant_on (ok : Event -> bool) (P : World -> Prop) :
  (forall w e clk w', ok e = true -> P w -> deliver w e clk = Some w' -> P w') ->
  forall schedule w w',
    only ok schedule = true -> P w -> run w schedule = Some w' -> P w'.
Proof.
  intros Hstep schedule.
  induction schedule as [|[e clk] rest IH]; intros w w' Hok Hw Hrun;
    simpl in Hrun.
  - now injection Hrun as <-.
  - simpl in Hok. apply andb_true_iff in Hok as [He Hrest].
    destruct (deliver w e clk) as [w1|] eqn:Hd; [|discriminate].
    eapply IH; [exact Hrest| |exact Hrun]. eapply Hstep; eauto.
Qed.

Lemma run_invariant (P : World -> Prop) :
  (forall w e clk w', P w -> deliver w e clk = Some w' -> P w') ->
  forall schedule w w', P w -> run w schedule = Some w' -> P w'.
Proof.
  intros Hstep schedule w w' Hw Hrun.
  apply (run_invariant_on (fun _ => true) P) with (schedule := schedule) (w := w);
    auto.
  - intros; eapply Hstep; eauto.
  - unfold only. apply forallb_forall. reflexivity.
Qed.

Lemma reachable_invariant (P : World -> Prop) :
  P boot ->
  (forall w e clk w', P w -> deliver w e clk = Some w' -> P w') ->
  forall w, reachable w -> P w.
Proof.
  intros H0 Hstep w [s Hs]. eapply run_invariant; eauto.
Qed.

(** ** The two self-rescheduling loops keep one callback outstanding *)

Lemma loops_ok_deliver (w w' : World) (e : Event) (clk : string) :
  loops_ok w -> deliver w e clk = Some w' -> loops_ok w'.
Proof.
  unfold loops_ok. intros Hw Hd. open_world w. cbn in Hw.
  destruct Hw as (Hpoll & Hle & Harmed).
  destruct e; delivered Hd; repeat split; try lia; try congruence;
    try (intros; subst; lia); auto.
Qed.

Lemma loops_ok_reachable (w : World) : reachable w -> loops_ok w.
Proof.
  apply reachable_invariant.
  - unfold loops_ok; cbn; repeat split; lia.
  - intros w0 e clk w1. apply loops_ok_deliver.
Qed.

(** ** Discovery polling *)

(** C1, as stated, fails: in [overlap_schedule] the second poll timeout sends
    a source-list request and, while the manager is still waiting for that
    answer and has not ended, [onSessionClosed] sends another one. *)
Lemma source_list_requests_overlap :
  exists w,
    run boot overlap_schedule = Some w
    /\ waitingForAvailableStreamsAnswer (mgr w) = true
    /\ hasEnded (mgr w) = false
    /\ streamsRequests w = 2.
Proof. ran_schedule. Qed.

(** C1, amended: along every schedule at most one discovery poll is armed
    (the poll timeout and the available-streams parser it registers are
    outstanding at most once in total); while the manager waits for the
    answer, [updateStreamsAvailable] arms nothing and changes no field, and
    sends one more source-list request at once. *)
Theorem one_poll_armed (w : World) :
  reachable w ->
  pollTimers w + streamsParsers w <= 1
  /\ (waitingForAvailableStreamsAnswer (mgr w) = true ->
      forall clk,
        exec updateStreamsAvailable clk (mgr w) = (mgr w, [RequestStreams])).
Proof.
  intro Hr. apply loops_ok_reachable in Hr. destruct Hr as (Hpoll & _).
  split.
  - destruct (waitingForAvailableStreamsAnswer (mgr w)); lia.
  - intros Hwait clk. unfold_cmds. now rewrite Hwait.
Qed.

Lemma one_poll_armed_witness :
  let w := invoke startConsumer "10:00:00" boot in
  pollTimers w + streamsParsers w <= 1
  /\ (waitingForAvailableStreamsAnswer (mgr w) = true ->
      forall clk,
        exec updateStreamsAvailable clk (mgr w) = (mgr w, [RequestStreams])).
Proof.
  apply (one_poll_armed (invoke startConsumer "10:00:00" boot)).
  exists [(SignallerOpen, "10:00:00")]. vm_compute. reflexivity.
Defined.

(** ** Closing *)

(** C2, as stated, fails: the session-request loop never reads [hasEnded].
    After [close] it keeps re-arming its timeout while the stream is missing,
    and when the stream is listed it requests a session, which also clears
    [hasEnded]; the answer then creates a session. *)
Lemma session_loop_survives_close :
  (exists w,
     run boot close_then_timeouts = Some w
     /\ hasEnded (mgr w) = true
     /\ sessionTimers w = 1
     /\ sent w = [SetTimeout SessionTimer 1000; SignallerEnd "bye";
                  SetTimeout SessionTimer 1000; SetTimeout SessionTimer 1000])
  /\ (exists w,
        run boot close_then_request = Some w
        /\ hasEnded (mgr w) = false
        /\ session (mgr w) = Some (Session.mk "S1" (Some "A1") cam)
        /\ skipn 6 (sent w) =
             [SignallerEnd "bye"; RequestSessionId "A1" cam;
              NewSession (Session.mk "S1" (Some "A1") cam);
              ParseEndSessionQuestion (Some "A1") "p1" "S1";
              ParseNegotiation (Some "A1") "p1" "S1"]).
Proof. split; ran_schedule. Qed.

Lemma winding_down_deliver (armed requested : nat) (w w' : World) (e : Event)
  (clk : string) :
  quiet e = true -> winding_down armed requested w ->
  deliver w e clk = Some w' -> winding_down armed requested w'.
Proof.
  unfold winding_down. intros Hq (Hend & Hpoll & Harm & Hreq) Hd.
  open_world w. cbn in Hend, Hpoll, Harm, Hreq. subst.
  destruct e; try discriminate Hq; delivered Hd;
    rewrite ?count_app; unfold count in *; cbn; repeat split;
    try lia; try congruence.
Qed.

(** C2, amended: [close] ends the session object, if there is one, and the
    signaller, and leaves [hasEnded] set and no session.  From then on, as long as no delivery runs [startConsumer] or [requestSession] (a
    signaller open, a session timeout, a closed session), the flag stays
    set and the discovery loop stops: no further poll timeout is armed and
    at most one further source-list request is sent. *)
Theorem close_stops_polling (w w1 : World) (reason clk : string) :
  reachable w ->
  deliver w (Close reason) clk = Some w1 ->
  hasEnded (mgr w1) = true
  /\ session (mgr w1) = None
  /\ sent w1 =
       sent w
       ++ (match session (mgr w) with Some s => [SessionEnd s] | None => [] end)
       ++ [SignallerEnd reason]
  /\ forall schedule w2,
       only quiet schedule = true ->
       run w1 schedule = Some w2 ->
       hasEnded (mgr w2) = true
       /\ count (isSetTimeout PollTimer) (sent w2) =
            count (isSetTimeout PollTimer) (sent w1)
       /\ count isRequestStreams (sent w2) <=
            count isRequestStreams (sent w1) + 1.
Proof.
  intros Hr Hd.
  assert (Hok1 : loops_ok w1).
  { apply loops_ok_reachable. eapply reachable_deliver; eauto. }
  assert (Hfields : hasEnded (mgr w1) = true /\ session (mgr w1) = None
            /\ sent w1 =
                 sent w
                 ++ (match session (mgr w) with
                     | Some s => [SessionEnd s]
                     | None => []
                     end)
                 ++ [SignallerEnd reason]).
  { clear Hr Hok1. open_world w.
    delivered Hd; rewrite <- ?app_assoc; auto. }
  destruct Hfields as (Hend & Hsess & Hsent).
  split; [exact Hend | split; [exact Hsess | split; [exact Hsent |]]].
  intros schedule w2 Hquiet Hrun.
  set (armed := count (isSetTimeout PollTimer) (sent w1)).
  set (requested := count isRequestStreams (sent w1)).
  assert (Hwd : winding_down armed requested w2).
  { apply (run_invariant_on quiet (winding_down armed requested))
      with (schedule := schedule) (w := w1); auto.
    - intros w0 e clk0 w0' He Hw0 Hd0.
      eapply winding_down_deliver; eauto.
    - destruct Hok1 as (Hpoll & _). unfold winding_down.
      repeat split; auto. fold requested.
      destruct (waitingForAvailableStreamsAnswer (mgr w1)); lia. }
  destruct Hwd as (H1 & _ & H3 & H4). repeat split; auto; lia.
Qed.

Lemma close_stops_polling_witness :
  let w := invoke startConsumer "10:00:00" boot in
  let w1 := invoke (close "bye") "10:00:01" w in
  hasEnded (mgr w1) = true
  /\ session (mgr w1) = None
  /\ sent w1 =
       sent w
       ++ (match session (mgr w) with Some s => [SessionEnd s] | None => [] end)
       ++ [SignallerEnd "bye"]
  /\ forall schedule w2,
       only quiet schedule = true ->
       run w1 schedule = Some w2 ->
       hasEnded (mgr w2) = true
       /\ count (isSetTimeout PollTimer) (sent w2) =
            count (isSetTimeout PollTimer) (sent w1)
       /\ count isRequestStreams (sent w2) <=
            count isRequestStreams (sent w1) + 1.
Proof.
  apply (close_stops_polling (invoke startConsumer "10:00:00" boot)
           (invoke (close "bye") "10:00:01"
              (invoke startConsumer "10:00:00" boot))
           "bye" "10:00:01").
  - exists [(SignallerOpen, "10:00:00")]. vm_compute. reflexivity.
  - reflexivity.
Defined.

(** ** Session identifiers *)

(** C3, as stated, fails: in [reselect_schedule] the desired source is
    [cam2] when the answer to the request for [cam] arrives, and a session
    for [cam] is created all the same. *)
Lemma stale_session_id_creates_session :
  exists w,
    run boot reselect_schedule = Some w
    /\ streamName (mgr w) = Some "cam2"
    /\ session (mgr w) = Some (Session.mk "S1" (Some "A1") cam)
    /\ sessions w = [Session.mk "S1" (Some "A1") cam].
Proof. ran_schedule. Qed.

(** C3, amended: when a pending session request resolves with a session id,
    a Session is created for the stream that was requested, whatever the
    desired source is by then; no comparison is made and [streamName] is
    left as it is. *)
Theorem session_id_always_accepted (m : Manager) (wanted : option string)
  (stream : Stream.t) (sid clk : string) :
  let s := Session.mk sid (consumerId m) stream in
  let m' := fields (onSessionIdReceived stream (Stream.id stream) sid) clk
              (set_streamName wanted m) in
  session m' = Some s
  /\ streamName m' = wanted
  /\ calls (onSessionIdReceived stream (Stream.id stream) sid) clk
       (set_streamName wanted m) =
     [NewSession s;
      ParseEndSessionQuestion (consumerId m) (Stream.id stream) sid;
      ParseNegotiation (consumerId m) (Stream.id stream) sid].
Proof. repeat split. Qed.

(** ** The session-request loop *)

Lemma session_timeout_found (m : Manager) (c : string) (stream : Stream.t)
  (clk : string) :
  waitingForSessionStart m = true ->
  consumerId m = Some c ->
  find (nameIs (streamName m)) (availableStreams m) = Some stream ->
  exec onSessionTimeout clk m =
    (set_waitingForSessionStart false
       (set_hasEnded false
          (set_streamStatus
             (starting stream (streamName m) ++ " (" ++ clk ++ ")") m)),
     [RequestSessionId c stream]).
Proof.
  intros Hwait Hc Hfind. destruct m. cbn in Hwait, Hc, Hfind. subst.
  unfold_cmds. rewrite Hfind. reflexivity.
Qed.

Lemma session_timeout_missing (m : Manager) (clk : string) :
  waitingForSessionStart m = true ->
  find (nameIs (streamName m)) (availableStreams m) = None ->
  exec onSessionTimeout clk m =
    (set_waitingForSessionStart true
       (set_streamStatus
          (notAvailable (streamName m) ++ " (" ++ clk ++ ")") m),
     [SetTimeout SessionTimer 1000]).
Proof.
  intros Hwait Hfind. destruct m. cbn in Hwait, Hfind. subst.
  unfold_cmds. rewrite Hfind. reflexivity.
Qed.

Lemma wedged_deliver (w w' : World) (e : Event) (clk : string) :
  wedged w -> deliver w e clk = Some w' ->
  wedged w'
  /\ count isRequestSessionId (sent w') = count isRequestSessionId (sent w).
Proof.
  unfold wedged. intros (Hwait & Htimers) Hd.
  open_world w. cbn in Hwait, Htimers. subst.
  destruct e; delivered Hd;
    rewrite ?count_app; unfold count; cbn; repeat split; lia.
Qed.

Lemma wedged_run (schedule : list (Event * string)) (w w' : World) :
  wedged w -> run w schedule = Some w' ->
  wedged w'
  /\ count isRequestSessionId (sent w') = count isRequestSessionId (sent w).
Proof.
  intros Hw Hrun.
  apply (run_invariant
           (fun x => wedged x /\
              count isRequestSessionId (sent x) =
              count isRequestSessionId (sent w)))
    with (schedule := schedule) (w := w); auto.
  intros w0 e clk w1 [Hw0 Hc0] Hd.
  destruct (wedged_deliver w0 w1 e clk Hw0 Hd) as [Hw1 Hc1].
  split; [exact Hw1 | congruence].
Qed.

(** C4: what the code does when the session timeout finds the stream and no
    consumer id.  It re-registers, but [waitingForSessionStart] is still set
    when [startSession] is called again, so no timeout is armed; from then on
    no schedule whatsoever leads to a session request. *)
Theorem missing_consumer_wedges_loop (w w1 : World) (stream : Stream.t)
  (clk : string) :
  reachable w ->
  find (nameIs (streamName (mgr w))) (availableStreams (mgr w)) = Some stream ->
  consumerId (mgr w) = None ->
  deliver w SessionTimeout clk = Some w1 ->
  consumerRequests w1 = S (consumerRequests w)
  /\ wedged w1
  /\ forall schedule w2,
       run w1 schedule = Some w2 ->
       wedged w2
       /\ count isRequestSessionId (sent w2) =
            count isRequestSessionId (sent w).
Proof.
  intros Hr Hfind Hc Hd.
  apply loops_ok_reachable in Hr. destruct Hr as (_ & Hle & Harmed).
  assert (Hnow : consumerRequests w1 = S (consumerRequests w) /\ wedged w1
                 /\ count isRequestSessionId (sent w1) =
                      count isRequestSessionId (sent w)).
  { unfold wedged. open_world w. cbn in Hfind, Hc, Hle, Harmed. subst.
    cbn in Hd. destruct sessionTimers0 as [|k]; [discriminate|].
    assert (k = 0) by lia. subst k.
    rewrite (Harmed eq_refl) in Hd. unfold_cmds. rewrite Hfind in Hd.
    split_guards; injection Hd as <-; cbn;
      rewrite ?count_app; unfold count; cbn; repeat split; lia. }
  destruct Hnow as (Hreg & Hwedged & Hcount).
  split; [exact Hreg | split; [exact Hwedged |]].
  intros schedule w2 Hrun.
  destruct (wedged_run schedule w1 w2 Hwedged Hrun) as [Hw2 Hc2].
  split; [exact Hw2 | congruence].
Qed.

Lemma missing_consumer_wedges_loop_witness :
  consumerRequests late_consumer_fired = S (consumerRequests late_consumer)
  /\ wedged late_consumer_fired
  /\ forall schedule w2,
       run late_consumer_fired schedule = Some w2 ->
       wedged w2
       /\ count isRequestSessionId (sent w2) =
            count isRequestSessionId (sent late_consumer).
Proof.
  apply (missing_consumer_wedges_loop late_consumer late_consumer_fired cam
           "10:00:03").
  - exists late_consumer_schedule. vm_compute. reflexivity.
  - vm_compute. reflexivity.
  - reflexivity.
  - vm_compute. reflexivity.
Defined.

(** ** Recovery after a closed session *)



(** Scenario B, run: after the transport failure the manager asks for a new
    consumer id, polls the catalog again and requests a session for the
    entry named [cam], under its new id and with the new consumer id. *)
Example scenario_B_recovers :
  exists w,
    run boot recovery_schedule = Some w
    /\ consumerId (mgr w) = Some "A2"
    /\ streamName (mgr w) = Some "cam"
    /\ sessionRequests w = [("A2", cam_rotated)]
    /\ skipn 10 (sent w) =
         [SessionEnd (Session.mk "S1" (Some "A1") cam); RequestConsumerId;
          RequestStreams; SetTimeout SessionTimer 1000;
          ParseAvailableStreamsAnswer; RequestStreams;
          SetTimeout PollTimer 1000; RequestSessionId "A2" cam_rotated].
Proof. ran_schedule. Qed.

(** ** Selecting a stream *)

(** C6: when the watched selection changes and the ids differ, a defined
    previous stream makes the manager stop the current session, and a defined
    new stream makes it record the stream's name and enter the
    session-request loop; the timeout of that loop looks the recorded name up
    in the catalog by comparing names, and requests the entry found. *)
Theorem selection_change_restarts (newStream oldStream : option Stream.t)
  (m : Manager) (clk : string) :
  idOf newStream <> idOf oldStream ->
  let m' := fields (onSelectedStream newStream oldStream) clk m in
  let out := calls (onSelectedStream newStream oldStream) clk m in
  (oldStream <> None ->
     session m' = None
     /\ forall s, session m = Some s -> In (SessionEnd s) out)
  /\ (forall s, newStream = Some s ->
        streamName m' = Some (Stream.name s)
        /\ waitingForSessionStart m' = true
        /\ (waitingForSessionStart m = false ->
            In (SetTimeout SessionTimer 1000) out)
        /\ forall m2 c stream clk2,
             streamName m2 = streamName m' ->
             waitingForSessionStart m2 = true ->
             consumerId m2 = Some c ->
             find (fun x => String.eqb (Stream.name x) (Stream.name s))
               (availableStreams m2) = Some stream ->
             calls onSessionTimeout clk2 m2 = [RequestSessionId c stream]).
Proof.
  intros Hid. apply sameId_false in Hid. cbv zeta. split.
  - intros Hold. destruct oldStream as [o|]; [|congruence]. split.
    + destruct m. unfold_cmds. rewrite Hid. cbn. split_guards; reflexivity.
    + intros s Hs. destruct m. cbn in Hs. subst. unfold_cmds. rewrite Hid.
      cbn. split_guards; cbn; auto.
  - intros s ->.
    assert (Hname : streamName (fields (onSelectedStream (Some s) oldStream)
                                  clk m) = Some (Stream.name s)).
    { destruct m. unfold_cmds. rewrite Hid. cbn. split_guards; reflexivity. }
    repeat split.
    + exact Hname.
    + destruct m. unfold_cmds. rewrite Hid. cbn. split_guards; reflexivity.
    + intros Hw. destruct m. cbn in Hw. subst. unfold_cmds. rewrite Hid.
      cbn. split_guards; cbn; auto.
    + intros m2 c stream clk2 Hn Hw Hc Hfind. rewrite Hname in Hn.
      unfold calls. rewrite (session_timeout_found m2 c stream clk2 Hw Hc);
        [reflexivity|].
      rewrite Hn. exact Hfind.
Qed.

Lemma selection_change_restarts_witness :
  let m' := fields (onSelectedStream (Some cam2) (Some cam)) "10:00:05" active in
  let out := calls (onSelectedStream (Some cam2) (Some cam)) "10:00:05" active in
  (Some cam <> None ->
     session m' = None
     /\ forall s, session active = Some s -> In (SessionEnd s) out)
  /\ (forall s, Some cam2 = Some s ->
        streamName m' = Some (Stream.name s)
        /\ waitingForSessionStart m' = true
        /\ (waitingForSessionStart active = false ->
            In (SetTimeout SessionTimer 1000) out)
        /\ forall m2 c stream clk2,
             streamName m2 = streamName m' ->
             waitingForSessionStart m2 = true ->
             consumerId m2 = Some c ->
             find (fun x => String.eqb (Stream.name x) (Stream.name s))
               (availableStreams m2) = Some stream ->
             calls onSessionTimeout clk2 m2 = [RequestSessionId c stream]).
Proof.
  apply (selection_change_restarts (Some cam2) (Some cam) active "10:00:05").
  simpl. discriminate.
Defined.

(** C7: when the session timeout fires and no catalog entry carries the
    desired name, no session request is issued; the stream status reports the
    miss, the in-flight flag is cleared and [startSession] is entered again
    from that cleared state, which arms the one-second timeout anew. *)
Theorem missing_stream_retries (w w1 : World) (clk : string) :
  reachable w ->
  find (nameIs (streamName (mgr w))) (availableStreams (mgr w)) = None ->
  deliver w SessionTimeout clk = Some w1 ->
  sessionRequests w1 = sessionRequests w
  /\ sent w1 = sent w ++ [SetTimeout SessionTimer 1000]
  /\ sessionTimers w1 = 1
  /\ waitingForSessionStart (mgr w1) = true
  /\ streamStatus (mgr w1) =
       (notAvailable (streamName (mgr w)) ++ " (" ++ clk ++ ")")%string
  /\ mgr w1 =
       fields startSession clk
         (set_waitingForSessionStart false
            (fields (updateStreamStatus (notAvailable (streamName (mgr w))))
               clk (mgr w))).
Proof.
  intros Hr Hfind Hd.
  apply loops_ok_reachable in Hr. destruct Hr as (_ & Hle & Harmed).
  open_world w. cbn in Hfind, Hle, Harmed. cbn in Hd.
  destruct sessionTimers0 as [|k]; [discriminate|].
  assert (k = 0) by lia. subst k.
  rewrite (Harmed eq_refl) in *. unfold_cmds. rewrite Hfind in Hd.
  injection Hd as <-. cbn. repeat split.
Qed.

Lemma missing_stream_retries_witness :
  sessionRequests selected_early_fired = sessionRequests selected_early
  /\ sent selected_early_fired =
       sent selected_early ++ [SetTimeout SessionTimer 1000]
  /\ sessionTimers selected_early_fired = 1
  /\ waitingForSessionStart (mgr selected_early_fired) = true
  /\ streamStatus (mgr selected_early_fired) =
       (notAvailable (streamName (mgr selected_early))
        ++ " (" ++ "10:00:01" ++ ")")%string
  /\ mgr selected_early_fired =
       fields startSession "10:00:01"
         (set_waitingForSessionStart false
            (fields
               (updateStreamStatus (notAvailable (streamName (mgr selected_early))))
               "10:00:01" (mgr selected_early))).
Proof.
  apply (missing_stream_retries selected_early selected_early_fired "10:00:01").
  - exists [(SelectStream (Some cam), "10:00:00")]. vm_compute. reflexivity.
  - reflexivity.
  - vm_compute. reflexivity.
Defined.

(** ** Status texts *)





(** ** Closing twice *)

(** C9: once [close] has run, another [close] or [stopSession], with any
    reason, leaves every field as it is: the session stays undefined,
    [hasEnded] stays set, and the session-stop path returns early without
    rewriting the stream status or making any call. *)
Theorem close_is_idempotent (m : Manager) (r1 r2 c1 c2 : string) :
  let closed := fields (close r1) c1 m in
  session closed = None
  /\ hasEnded closed = true
  /\ fields (close r2) c2 closed = closed
  /\ exec (stopSession r2) c2 closed = (closed, [])
  /\ calls (close r2) c2 closed = [SignallerEnd r2].
Proof.
  cbv zeta. destruct m as [? ? ? ? ? [s|] ? ? ?]; repeat split.
Qed.

(** ** Selecting the same stream again *)

(** C10: when the new stream's id equals the old one's, the watch callback
    returns at once: no field changes and no call is made. *)
Theorem same_id_is_ignored (newStream oldStream : option Stream.t)
  (m : Manager) (clk : string) :
  idOf newStream = idOf oldStream ->
  exec (onSelectedStream newStream oldStream) clk m = (m, []).
Proof.
  intros Hid. apply sameId_true in Hid.
  unfold onSelectedStream. rewrite Hid. reflexivity.
Qed.

Lemma same_id_is_ignored_witness :
  exec (onSelectedStream (Some (Stream.mk "p1" "front")) (Some cam))
    "10:00:05" active = (active, []).
Proof.
  apply (same_id_is_ignored (Some (Stream.mk "p1" "front")) (Some cam) active
           "10:00:05").
  reflexivity.
Defined.

(** * Further properties of the manager *)

(** ** The session-request loop keeps one timeout *)

(** X1: along every schedule at most one [startSession] timeout is armed,
    and while one is armed [waitingForSessionStart] is set, so a firing
    session timeout never takes its early return. *)
Theorem one_session_timeout_armed (w : World) :
  reachable w ->
  sessionTimers w <= 1
  /\ (sessionTimers w = 1 -> waitingForSessionStart (mgr w) = true).
Proof.
  intro Hr. apply loops_ok_reachable in Hr. destruct Hr as (_ & Hle & Harmed).
  split; assumption.
Qed.

Lemma one_session_timeout_armed_witness :
  sessionTimers late_consumer <= 1
  /\ (sessionTimers late_consumer = 1 ->
      waitingForSessionStart (mgr late_consumer) = true).
Proof.
  apply (one_session_timeout_armed late_consumer).
  exists late_consumer_schedule. vm_compute. reflexivity.
Defined.

(** ** One turn of the discovery loop *)

(** X2: a poll timeout that fires always finds the manager waiting: it
    changes no field, registers the answer parser and sends the source-list
    request, and leaves no poll timeout armed. *)
Theorem poll_timeout_always_polls (w w1 : World) (clk : string) :
  reachable w ->
  deliver w PollTimeout clk = Some w1 ->
  mgr w1 = mgr w
  /\ sent w1 = sent w ++ [ParseAvailableStreamsAnswer; RequestStreams]
  /\ pollTimers w1 = 0
  /\ streamsParsers w1 = 1
  /\ streamsRequests w1 = S (streamsRequests w).
Proof.
  intros Hr Hd. apply loops_ok_reachable in Hr. destruct Hr as (Hpoll & _).
  open_world w. cbn in Hpoll. cbn in Hd.
  destruct pollTimers0 as [|k]; [discriminate|].
  destruct waitingForAvailableStreamsAnswer0; [|lia].
  assert (k = 0) by lia. assert (streamsParsers0 = 0) by lia. subst.
  unfold_cmds. injection Hd as <-. cbn. rewrite <- app_assoc.
  repeat split.
Qed.

Lemma poll_timeout_always_polls_witness :
  mgr late_consumer_polled = mgr late_consumer
  /\ sent late_consumer_polled =
       sent late_consumer ++ [ParseAvailableStreamsAnswer; RequestStreams]
  /\ pollTimers late_consumer_polled = 0
  /\ streamsParsers late_consumer_polled = 1
  /\ streamsRequests late_consumer_polled = S (streamsRequests late_consumer).
Proof.
  apply (poll_timeout_always_polls late_consumer late_consumer_polled
           "10:00:02").
  - exists late_consumer_schedule. vm_compute. reflexivity.
  - vm_compute. reflexivity.
Defined.

(** X3: a catalog answer that reaches the registered parser replaces the
    catalog by the answer.  Unless [hasEnded] is set it arms the next poll
    timeout (1000 ms) and keeps the manager waiting; with [hasEnded] set it
    makes no call and leaves the loop at rest. *)
Theorem answer_refreshes_catalog (w w1 : World) (streams : list Stream.t)
  (clk : string) :
  reachable w ->
  streamsParsers w = 1 ->
  deliver w (StreamsAnswer streams) clk = Some w1 ->
  availableStreams (mgr w1) = streams
  /\ waitingForAvailableStreamsAnswer (mgr w1) = negb (hasEnded (mgr w))
  /\ streamsParsers w1 = 0
  /\ pollTimers w1 = (if hasEnded (mgr w) then 0 else 1)
  /\ sent w1 =
       sent w ++ (if hasEnded (mgr w) then [] else [SetTimeout PollTimer 1000]).
Proof.
  intros Hr Hp Hd. apply loops_ok_reachable in Hr. destruct Hr as (Hpoll & _).
  open_world w. cbn in Hpoll, Hp. subst. cbn in Hd.
  destruct streamsRequests0 as [|k]; [discriminate|].
  destruct waitingForAvailableStreamsAnswer0; [|lia].
  assert (pollTimers0 = 0) by lia. subst.
  unfold_cmds. destruct hasEnded0; injection Hd as <-; cbn;
    rewrite ?app_nil_r; repeat split.
Qed.

Lemma answer_refreshes_catalog_witness :
  availableStreams (mgr late_consumer_refreshed) = [cam; cam2]
  /\ waitingForAvailableStreamsAnswer (mgr late_consumer_refreshed) =
       negb (hasEnded (mgr late_consumer_polled))
  /\ streamsParsers late_consumer_refreshed = 0
  /\ pollTimers late_consumer_refreshed =
       (if hasEnded (mgr late_consumer_polled) then 0 else 1)
  /\ sent late_consumer_refreshed =
       sent late_consumer_polled
       ++ (if hasEnded (mgr late_consumer_polled)
           then [] else [SetTimeout PollTimer 1000]).
Proof.
  apply (answer_refreshes_catalog late_consumer_polled late_consumer_refreshed
           [cam; cam2] "10:00:02").
  - exists (late_consumer_schedule ++ [(PollTimeout, "10:00:02")]).
    vm_compute. reflexivity.
  - reflexivity.
  - vm_compute. reflexivity.
Defined.

Lemma last_nonempty {A : Type} (l : list A) (x d d' : A) :
  last (x :: l) d = last (x :: l) d'.
Proof.
  revert x. induction l as [|y l IH]; intro x; [reflexivity|].
  change (last (y :: l) d = last (y :: l) d'). apply IH.
Qed.

Lemma poll_turn (w : World) (a : list Stream.t) (clk : string) :
  reachable w -> hasEnded (mgr w) = false -> pollTimers w = 1 ->
  exists w1,
    run w [(PollTimeout, clk); (StreamsAnswer a, clk)] = Some w1
    /\ reachable w1
    /\ hasEnded (mgr w1) = false
    /\ pollTimers w1 = 1
    /\ availableStreams (mgr w1) = a
    /\ count isRequestStreams (sent w1) = S (count isRequestStreams (sent w)).
Proof.
  intros Hr Hend Ht.
  assert (Hrun : exists w1,
             run w [(PollTimeout, clk); (StreamsAnswer a, clk)] = Some w1
             /\ hasEnded (mgr w1) = false
             /\ pollTimers w1 = 1
             /\ availableStreams (mgr w1) = a
             /\ count isRequestStreams (sent w1)
                = S (count isRequestStreams (sent w))).
  { apply loops_ok_reachable in Hr. destruct Hr as (Hpoll & _).
    open_world w. cbn in Hpoll, Hend, Ht. subst.
    destruct waitingForAvailableStreamsAnswer0; [|lia].
    assert (streamsParsers0 = 0) by lia. subst.
    eexists. split; [cbn; unfold_cmds; reflexivity|].
    cbn. rewrite !count_app. unfold count. cbn. repeat split; lia. }
  destruct Hrun as (w1 & Hrun & Hrest). exists w1. split; [exact Hrun|].
  split; [|exact Hrest].
  destruct Hr as [s0 Hs0]. exists (s0 ++ [(PollTimeout, clk); (StreamsAnswer a, clk)]).
  rewrite run_app, Hs0. exact Hrun.
Qed.

(** X4: the discovery loop is self-rescheduling.  From a world with an armed
    poll timeout and [hasEnded] clear, any number of poll/answer turns can be
    delivered; each sends exactly one source-list request, the catalog is
    the latest answer, and a poll timeout is armed again at the end. *)
Theorem polling_keeps_turning (answers : list (list Stream.t)) (clk : string)
  (w : World) :
  reachable w ->
  hasEnded (mgr w) = false ->
  pollTimers w = 1 ->
  exists w',
    run w (poll_turns answers clk) = Some w'
    /\ hasEnded (mgr w') = false
    /\ pollTimers w' = 1
    /\ availableStreams (mgr w') = last answers (availableStreams (mgr w))
    /\ count isRequestStreams (sent w') =
         count isRequestStreams (sent w) + length answers.
Proof.
  revert w. induction answers as [|a rest IH]; intros w Hr Hend Ht.
  - exists w. cbn. repeat split; auto.
  - destruct (poll_turn w a clk Hr Hend Ht)
      as (w1 & Hrun & Hr1 & Hend1 & Ht1 & Hcat1 & Hcount1).
    destruct (IH w1 Hr1 Hend1 Ht1) as (w' & Hrun' & Hend' & Ht' & Hcat' & Hcount').
    exists w'. split.
    + change (poll_turns (a :: rest) clk)
        with ([(PollTimeout, clk); (StreamsAnswer a, clk)] ++ poll_turns rest clk).
      rewrite run_app, Hrun. exact Hrun'.
    + repeat split; auto.
      * rewrite Hcat', Hcat1. destruct rest as [|b rest']; [reflexivity|].
        change (last (b :: rest') a
                = last (b :: rest') (availableStreams (mgr w))).
        apply last_nonempty.
      * rewrite Hcount', Hcount1. cbn [length]. lia.
Qed.

Lemma polling_keeps_turning_witness :
  exists w',
    run late_consumer (poll_turns [[cam]; []; [cam; cam2]] "10:00:02") = Some w'
    /\ hasEnded (mgr w') = false
    /\ pollTimers w' = 1
    /\ availableStreams (mgr w') =
         last [[cam]; []; [cam; cam2]] (availableStreams (mgr late_consumer))
    /\ count isRequestStreams (sent w') =
         count isRequestStreams (sent late_consumer)
         + length [[cam]; []; [cam; cam2]].
Proof.
  apply (polling_keeps_turning [[cam]; []; [cam; cam2]] "10:00:02"
           late_consumer).
  - exists late_consumer_schedule. vm_compute. reflexivity.
  - reflexivity.
  - reflexivity.
Defined.




(** ** What the session-request loop asks for *)

Lemma unselected_deliver (w w' : World) (e : Event) (clk : string) :
  unselecting e = true -> unselected w -> deliver w e clk = Some w' ->
  unselected w'.
Proof.
  unfold unselected.
  intros He (H1 & H2 & H3 & H4 & H5 & H6 & H7 & H8 & H9 & H10) Hd.
  open_world w. cbn in H1, H2, H3, H4, H5, H6, H7, H8, H9, H10. subst.
  destruct e as [| | | | | | |n sid| | |[s|]|]; try discriminate He;
    try (destruct n); delivered Hd;
    rewrite ?count_app; unfold count in *; cbn; repeat split; lia.
Qed.

(** X6: without the selection of a defined stream nothing starts the
    session-request loop: along every such schedule from the start, no
    session timeout is armed, no session is requested or created, and
    [streamName] stays undefined. *)
Theorem no_request_without_selection (schedule : list (Event * string))
  (w : World) :
  only unselecting schedule = true ->
  run boot schedule = Some w ->
  streamName (mgr w) = None
  /\ session (mgr w) = None
  /\ sessions w = []
  /\ count (isSetTimeout SessionTimer) (sent w) = 0
  /\ count isRequestSessionId (sent w) = 0.
Proof.
  intros Hq Hrun.
  assert (Hu : unselected w).
  { apply (run_invariant_on unselecting unselected)
      with (schedule := schedule) (w := boot); auto.
    - intros w0 e clk w0' He Hw0 Hd0. eapply unselected_deliver; eauto.
    - unfold unselected. cbn. repeat split. }
  destruct Hu as (H1 & _ & H3 & _ & _ & _ & H7 & _ & H9 & H10).
  repeat split; assumption.
Qed.

Lemma no_request_without_selection_witness :
  streamName (mgr unselecting_world) = None
  /\ session (mgr unselecting_world) = None
  /\ sessions unselecting_world = []
  /\ count (isSetTimeout SessionTimer) (sent unselecting_world) = 0
  /\ count isRequestSessionId (sent unselecting_world) = 0.
Proof.
  apply (no_request_without_selection unselecting_schedule unselecting_world).
  - reflexivity.
  - vm_compute. reflexivity.
Defined.

(** X7: a session timeout requests a session only for a stream that is in
    the current catalog and carries the selected name (the first such entry),
    with the consumer id the manager holds; it makes that one call and no
    other. *)
Theorem requested_stream_is_listed (m : Manager) (clk c : string)
  (s : Stream.t) :
  In (RequestSessionId c s) (calls onSessionTimeout clk m) ->
  waitingForSessionStart m = true
  /\ consumerId m = Some c
  /\ streamName m = Some (Stream.name s)
  /\ In s (availableStreams m)
  /\ find (nameIs (streamName m)) (availableStreams m) = Some s
  /\ calls onSessionTimeout clk m = [RequestSessionId c s].
Proof.
  intro Hin. destruct m. unfold_cmds.
  destruct waitingForSessionStart0; cbn in Hin; [|contradiction].
  destruct (find (nameIs streamName0) availableStreams0) as [stream|] eqn:Hfind;
    cbn in Hin.
  - destruct consumerId0 as [c0|]; cbn in Hin.
    + destruct Hin as [Heq|[]]. injection Heq as -> ->.
      destruct (find_some _ _ Hfind) as [Hlisted Hname].
      destruct streamName0 as [n|]; [|discriminate]. cbn in Hname.
      apply String.eqb_eq in Hname. subst n. repeat split; auto.
    + destruct waitingForAvailableStreamsAnswer0; cbn in Hin;
        repeat (destruct Hin as [Hin|Hin]; try discriminate); contradiction.
  - destruct Hin as [Hin|[]]. discriminate.
Qed.

Lemma requested_stream_is_listed_witness :
  waitingForSessionStart (mgr late_consumer_refreshed) = true
  /\ consumerId (set_consumerId (Some "A1") (mgr late_consumer_refreshed))
       = Some "A1"
  /\ streamName (mgr late_consumer_refreshed) = Some (Stream.name cam)
  /\ In cam (availableStreams (mgr late_consumer_refreshed))
  /\ find (nameIs (streamName (mgr late_consumer_refreshed)))
       (availableStreams (mgr late_consumer_refreshed)) = Some cam
  /\ calls onSessionTimeout "10:00:03"
       (set_consumerId (Some "A1") (mgr late_consumer_refreshed))
     = [RequestSessionId "A1" cam].
Proof.
  apply (requested_stream_is_listed
           (set_consumerId (Some "A1") (mgr late_consumer_refreshed))
           "10:00:03" "A1" cam).
  vm_compute. left. reflexivity.
Defined.

(** X8: the first session.  Whatever the consumer id, the catalog, the
    selected stream and the session id are: after registration, one catalog
    refresh and the selection, the session timeout requests the first catalog
    entry that carries the selected stream's name (its id may differ from the
    selected one), and the answer makes it the manager's session. *)
Theorem first_session_is_established (c sid clk : string)
  (catalog : list Stream.t) (wanted entry : Stream.t) :
  find (nameIs (Some (Stream.name wanted))) catalog = Some entry ->
  exists w,
    run boot (first_session_schedule c sid catalog wanted clk) = Some w
    /\ session (mgr w) = Some (Session.mk sid (Some c) entry)
    /\ sessions w = [Session.mk sid (Some c) entry]
    /\ sessionRequests w = []
    /\ hasEnded (mgr w) = false
    /\ waitingForSessionStart (mgr w) = false
    /\ streamStatus (mgr w) =
         (("Session " ++ sid ++ " successfully started")
          ++ " (" ++ clk ++ ")")%string
    /\ sent w =
         [RequestConsumerId; SetTimeout PollTimer 1000;
          ParseAvailableStreamsAnswer; RequestStreams;
          SetTimeout PollTimer 1000; SetTimeout SessionTimer 1000;
          RequestSessionId c entry;
          NewSession (Session.mk sid (Some c) entry);
          ParseEndSessionQuestion (Some c) (Stream.id entry) sid;
          ParseNegotiation (Some c) (Stream.id entry) sid].
Proof.
  intro Hfind. destruct wanted as [wid wname]. eexists. split.
  - vm_compute. vm_compute in Hfind. rewrite Hfind. reflexivity.
  - vm_compute. repeat split.
Qed.

Lemma first_session_is_established_witness :
  exists w,
    run boot (first_session_schedule "A1" "S1" [cam2; cam_rotated; cam] cam
                "10:00:00") = Some w
    /\ session (mgr w) = Some (Session.mk "S1" (Some "A1") cam_rotated)
    /\ sessions w = [Session.mk "S1" (Some "A1") cam_rotated]
    /\ sessionRequests w = []
    /\ hasEnded (mgr w) = false
    /\ waitingForSessionStart (mgr w) = false
    /\ streamStatus (mgr w) =
         (("Session " ++ "S1" ++ " successfully started")
          ++ " (" ++ "10:00:00" ++ ")")%string
    /\ sent w =
         [RequestConsumerId; SetTimeout PollTimer 1000;
          ParseAvailableStreamsAnswer; RequestStreams;
          SetTimeout PollTimer 1000; SetTimeout SessionTimer 1000;
          RequestSessionId "A1" cam_rotated;
          NewSession (Session.mk "S1" (Some "A1") cam_rotated);
          ParseEndSessionQuestion (Some "A1") (Stream.id cam_rotated) "S1";
          ParseNegotiation (Some "A1") (Stream.id cam_rotated) "S1"].
Proof.
  apply (first_session_is_established "A1" "S1" "10:00:00"
           [cam2; cam_rotated; cam] cam cam_rotated).
  reflexivity.
Defined.

(** X9: neither deselecting the stream nor [close] cancels a pending
    session-request attempt: the session timeout makes exactly the calls it
    would have made without them. *)
Theorem pending_attempt_survives (m : Manager) (old : Stream.t)
  (reason clk clk2 : string) :
  calls onSessionTimeout clk2 (fields (onSelectedStream None (Some old)) clk m)
    = calls onSessionTimeout clk2 m
  /\ calls onSessionTimeout clk2 (fields (close reason) clk m)
    = calls onSessionTimeout clk2 m.
Proof.
  destruct m. split; unfold_cmds; split_guards; reflexivity.
Qed.

(** ** Session objects *)




(** ** Status texts along a schedule *)

Lemma mgr_performed (out : list Action) (w : World) :
  mgr (fold_left perform out w) = mgr w.
Proof.
  revert w. induction out as [|a out IH]; intro w; [reflexivity|].
  cbn [fold_left]. rewrite IH. destruct a as [[|] ?| | | | | | | | |];
    reflexivity.
Qed.

Lemma mgr_invoke (c : Cmd unit) (clk : string) (w : World) :
  mgr (invoke c clk w) = fields c clk (mgr w).
Proof.
  unfold invoke, fields, exec. destruct (c clk (mgr w)) as [[u m'] out].
  cbn. apply mgr_performed.
Qed.

(** The fields after a delivery are those the callback leaves. *)
Lemma deliver_mgr (w w' : World) (e : Event) (clk : string) :
  deliver w e clk = Some w' -> mgr w' = fields (callback w e) clk (mgr w).
Proof.
  intro Hd. destruct e; cbn [deliver callback] in *;
    repeat (split_guard; try discriminate Hd);
    injection Hd as <-; rewrite ?mgr_invoke; reflexivity.
Qed.

Lemma callback_keeps_texts (w : World) (e : Event) (clk : string) (m : Manager) :
  stamped_or_initial (streamStatus m) ->
  stamped_or_initial (signallerStatus m) ->
  stamped_or_initial (streamStatus (fields (callback w e) clk m))
  /\ stamped_or_initial (signallerStatus (fields (callback w e) clk m)).
Proof.
  intros Hstream Hsig. destruct m. cbn in Hstream, Hsig.
  destruct e; cbn [callback];
    repeat (match goal with
            | |- context [match ?x with _ => _ end] =>
                plain_scrutinee x; destruct x
            end);
    unfold_fields;
    repeat (match goal with
            | |- context [match ?x with _ => _ end] =>
                plain_scrutinee x; destruct x; unfold_fields
            end);
    (split; [ first [exact Hstream | right; eexists; eexists; reflexivity]
            | first [exact Hsig | right; eexists; eexists; reflexivity] ]).
Qed.

Lemma texts_ok_deliver (w w' : World) (e : Event) (clk : string) :
  texts_ok w -> deliver w e clk = Some w' -> texts_ok w'.
Proof.
  unfold texts_ok. intros (Hstream & Hsig) Hd.
  rewrite (deliver_mgr w w' e clk Hd).
  apply callback_keeps_texts; assumption.
Qed.

(** X11: along every schedule each of the two status texts is either the
    initial text or a message followed by the time in parentheses. *)
Theorem status_texts_are_stamped (w : World) :
  reachable w ->
  stamped_or_initial (streamStatus (mgr w))
  /\ stamped_or_initial (signallerStatus (mgr w)).
Proof.
  apply (reachable_invariant texts_ok).
  - unfold texts_ok, stamped_or_initial. cbn. split; left; reflexivity.
  - intros w0 e clk w1. apply texts_ok_deliver.
Qed.

Lemma status_texts_are_stamped_witness :
  stamped_or_initial (streamStatus (mgr selected_early_fired))
  /\ stamped_or_initial (signallerStatus (mgr selected_early_fired)).
Proof.
  apply (status_texts_are_stamped selected_early_fired).
  exists [(SelectStream (Some cam), "10:00:00"); (SessionTimeout, "10:00:01")].
  vm_compute. reflexivity.
Defined.

(** ** Which callback assigns which field *)

(** X12: whatever is delivered, [streamName] changes only when a defined
    stream is selected (to that stream's name; deselecting keeps it),
    [consumerId] is set only by the answer to a registration and cleared only
    by a closed session, and [session] is set only by the answer to a session
    request. *)
Theorem fields_change_only_where_assigned (w w' : World) (e : Event)
  (clk : string) :
  deliver w e clk = Some w' ->
  (streamName (mgr w') = streamName (mgr w)
   \/ exists s, e = SelectStream (Some s)
               /\ streamName (mgr w') = Some (Stream.name s))
  /\ (consumerId (mgr w') = consumerId (mgr w)
      \/ (exists c, e = ConsumerIdAnswer c /\ consumerId (mgr w') = Some c)
      \/ (exists r, e = SessionClosed r /\ consumerId (mgr w') = None))
  /\ (session (mgr w') = session (mgr w)
      \/ session (mgr w') = None
      \/ exists n sid, e = SessionIdAnswer n sid).
Proof.
  intro Hd. open_world w.
  destruct e; delivered Hd; repeat split; eauto 6.
Qed.

Lemma fields_change_only_where_assigned_witness :
  (streamName (mgr selected_early) = streamName (mgr boot)
   \/ exists s, SelectStream (Some cam) = SelectStream (Some s)
               /\ streamName (mgr selected_early) = Some (Stream.name s))
  /\ (consumerId (mgr selected_early) = consumerId (mgr boot)
      \/ (exists c, SelectStream (Some cam) = ConsumerIdAnswer c
                    /\ consumerId (mgr selected_early) = Some c)
      \/ (exists r, SelectStream (Some cam) = SessionClosed r
                    /\ consumerId (mgr selected_early) = None))
  /\ (session (mgr selected_early) = session (mgr boot)
      \/ session (mgr selected_early) = None
      \/ exists n sid, SelectStream (Some cam) = SessionIdAnswer n sid).
Proof.
  apply (fields_change_only_where_assigned boot selected_early
           (SelectStream (Some cam)) "10:00:00").
  vm_compute. reflexivity.
Defined.

(** ** Opening the signaller again *)

(** X13: whenever the signaller opens, also after [close], [startConsumer]
    clears [hasEnded], empties the catalog and leaves the discovery loop
    running with exactly one poll timeout or parser outstanding; it asks for
    a consumer id only when none is held, and leaves the consumer id, the
    session and the session-request loop as they are. *)
Theorem reopen_restarts_polling (w w1 : World) (clk : string) :
  reachable w ->
  deliver w SignallerOpen clk = Some w1 ->
  hasEnded (mgr w1) = false
  /\ availableStreams (mgr w1) = []
  /\ waitingForAvailableStreamsAnswer (mgr w1) = true
  /\ pollTimers w1 + streamsParsers w1 = 1
  /\ consumerRequests w1 =
       consumerRequests w
       + (match consumerId (mgr w) with Some _ => 0 | None => 1 end)
  /\ consumerId (mgr w1) = consumerId (mgr w)
  /\ session (mgr w1) = session (mgr w)
  /\ waitingForSessionStart (mgr w1) = waitingForSessionStart (mgr w)
  /\ sessionTimers w1 = sessionTimers w.
Proof.
  intros Hr Hd. apply loops_ok_reachable in Hr. destruct Hr as (Hpoll & _).
  open_world w. cbn in Hpoll.
  delivered Hd; repeat split; lia.
Qed.

Lemma reopen_restarts_polling_witness :
  hasEnded (mgr late_consumer_reopened) = false
  /\ availableStreams (mgr late_consumer_reopened) = []
  /\ waitingForAvailableStreamsAnswer (mgr late_consumer_reopened) = true
  /\ pollTimers late_consumer_reopened + streamsParsers late_consumer_reopened
     = 1
  /\ consumerRequests late_consumer_reopened =
       consumerRequests late_consumer
       + (match consumerId (mgr late_consumer) with Some _ => 0 | None => 1 end)
  /\ consumerId (mgr late_consumer_reopened) = consumerId (mgr late_consumer)
  /\ session (mgr late_consumer_reopened) = session (mgr late_consumer)
  /\ waitingForSessionStart (mgr late_consumer_reopened) =
       waitingForSessionStart (mgr late_consumer)
  /\ sessionTimers late_consumer_reopened = sessionTimers late_consumer.
Proof.
  apply (reopen_restarts_polling late_consumer late_consumer_reopened
           "10:00:02").
  - exists late_consumer_schedule. vm_compute. reflexivity.
  - vm_compute. reflexivity.
Defined.

(** ** Tracks *)

Lemma hintMotion_twice (t : Media.Track) :
  hintMotion (hintMotion t) = hintMotion t.
Proof.
  destruct t as [k [h|]]; unfold hintMotion; cbn;
    destruct (String.eqb k "video") eqn:Hk; cbn; rewrite ?Hk; reflexivity.
Qed.

(** X14: [onTrackAdded] publishes the first stream of the event and ignores
    the others.  Of the tracks [getVideoTracks] returns, those of kind
    [video] that have a [contentHint] property get the hint [motion]; every
    other track, and every kind, is left as it was, and delivering the
    published stream again changes nothing.  An event without streams clears
    the media handle and throws. *)
Theorem track_added_hints_video (s : Media.Stream) (rest : list Media.Stream) :
  onTrackAdded [] = (None, Throws)
  /\ exists s',
       onTrackAdded (s :: rest) = (Some s', Returns)
       /\ Media.otherTracks s' = Media.otherTracks s
       /\ length (Media.videoTracks s') = length (Media.videoTracks s)
       /\ (forall i t,
             nth_error (Media.videoTracks s) i = Some t ->
             exists t',
               nth_error (Media.videoTracks s') i = Some t'
               /\ Media.kind t' = Media.kind t
               /\ Media.contentHint t' =
                    (if String.eqb (Media.kind t) "video"
                     then option_map (fun _ => "motion"%string)
                            (Media.contentHint t)
                     else Media.contentHint t))
       /\ onTrackAdded (s' :: rest) = (Some s', Returns).
Proof.
  split; [reflexivity|]. eexists. split; [reflexivity|]. cbn.
  split; [reflexivity|]. split; [apply length_map|]. split.
  - intros i t Hi. exists (hintMotion t). split.
    + now apply map_nth_error.
    + destruct t as [k [h|]]; unfold hintMotion; cbn;
        destruct (String.eqb k "video"); cbn; split; reflexivity.
  - unfold onTrackAdded. cbn. rewrite map_map.
    rewrite (map_ext _ hintMotion); [reflexivity|]. apply hintMotion_twice.
Qed.
